(** * The upcall layer of the task runtime (src/rt/rust_upcall.cpp)

    A shallow embedding of the upcalls the compiler generates calls to:
    the entry points, their record-based handlers, and the collaborators
    they reach through [rust_task], the kernel allocator, the boxed heap
    and the debug tracker.  Effects (the world the runtime mutates, C++
    exceptions, [abort()], null dereferences) are threaded through a small
    state-and-outcome monad; every call into a collaborator leaves an
    event in a trace, so that which services an upcall used, and in which
    order, can be stated.

    Addresses, sizes and counts are integers in [Z]: this translation unit
    only passes them on, it does no arithmetic that could wrap.
    [upcall_reset_stack_limit], which only forwards to the task, is left
    out. *)

From Stdlib Require Import ZArith Lia.
From stdpp Require Import base option list strings gmap.

Local Open Scope Z_scope.

(** ** Data model *)

(** [type_desc]: the two fields of a type descriptor the runtime reads.  A
    [type_desc *] is immutable and owned outside this layer, so a pointer to
    one is modelled by the descriptor itself. *)
Module type_desc.
Record t := mk { size : Z; align : Z }.
End type_desc.

(** [rust_opaque_box]: the header in front of every box.  Pointers are
    addresses in [Z], [0] is the null pointer; the [td] field holds [None]
    for a null descriptor. *)
Module rust_opaque_box.
Record t := mk {
  ref_count : Z;
  td : option type_desc.t;
  prev : Z;
  next : Z
}.
Definition zeroed : t := mk 0 None 0 0.
Definition set_ref_count (v : Z) (b : t) : t := mk v (td b) (prev b) (next b).
Definition set_td (v : option type_desc.t) (b : t) : t :=
  mk (ref_count b) v (prev b) (next b).
Definition set_prev (v : Z) (b : t) : t := mk (ref_count b) (td b) v (next b).
Definition set_next (v : Z) (b : t) : t := mk (ref_count b) (td b) (prev b) v.
End rust_opaque_box.

(** A region of memory handed out by an allocator: its footprint in bytes,
    and its contents seen as a box header followed by the remaining bytes. *)
Module block.
Record t := mk {
  footprint : Z;
  header : rust_opaque_box.t;
  body : list Z
}.
Definition set_header (h : rust_opaque_box.t) (b : t) : t :=
  mk (footprint b) h (body b).
End block.

(** The two stacks a task runs on. *)
Inductive stack_kind := RustStack | CStack.

(** One segment of the guest stack. *)
Module stk_seg.
Record t := mk { base : Z; len : Z }.
End stk_seg.

(** The task-local boxed heap, as far as this layer observes it: the list of
    the headers of its live allocations, most recent first. *)
Module boxed_region.
Record t := mk { live_allocs : list Z }.
End boxed_region.

(** [rust_task], as far as this layer observes it. *)
Module rust_task.
Record t := mk {
  name : string;
  sched_loop : Z;
  boxed : boxed_region.t;
  stack : stack_kind;
  stk : list stk_seg.t;
  failure : option (string * string * Z)
}.
Definition set_boxed (v : boxed_region.t) (k : t) : t :=
  mk (name k) (sched_loop k) v (stack k) (stk k) (failure k).
Definition set_stack (v : stack_kind) (k : t) : t :=
  mk (name k) (sched_loop k) (boxed k) v (stk k) (failure k).
Definition set_stk (v : list stk_seg.t) (k : t) : t :=
  mk (name k) (sched_loop k) (boxed k) (stack k) v (failure k).
Definition set_failure (v : option (string * string * Z)) (k : t) : t :=
  mk (name k) (sched_loop k) (boxed k) (stack k) (stk k) v.
End rust_task.

(** The argument records of the handlers.  A [rust_task *] is the address of
    the task. *)
Module s_fail_args.
Record t := mk { task : Z; expr : string; file : string; line : Z }.
End s_fail_args.

Module s_trace_args.
Record t := mk { task : Z; msg : string; file : string; line : Z }.
End s_trace_args.

Module s_exchange_malloc_args.
Record t := mk { task : Z; retval : Z; td : type_desc.t; size : Z }.
Definition set_retval (v : Z) (a : t) : t := mk (task a) v (td a) (size a).
End s_exchange_malloc_args.

Module s_exchange_free_args.
Record t := mk { task : Z; ptr : Z }.
End s_exchange_free_args.

Module s_malloc_args.
Record t := mk { task : Z; retval : Z; td : type_desc.t; size : Z }.
Definition set_retval (v : Z) (a : t) : t := mk (task a) v (td a) (size a).
End s_malloc_args.

Module s_free_args.
Record t := mk { task : Z; ptr : Z }.
End s_free_args.

Module s_rust_personality_args.
Record t := mk {
  retval : Z;
  version : Z;
  actions : Z;
  exception_class : Z;
  ue_header : Z;
  context : Z
}.
Definition set_retval (v : Z) (a : t) : t :=
  mk v (version a) (actions a) (exception_class a) (ue_header a) (context a).
End s_rust_personality_args.

(** What the diagnostic sink and the collaborators are asked to do. *)
Inductive log_arg :=
| LStr (s : string)
| LPtr (p : Z)
| LNum (n : Z)
| LTd (td : type_desc.t).

Inductive event :=
| EvLog (task : Z) (category fmt : string) (args : list log_arg)
| EvDLog (sched_loop : Z) (category fmt : string) (args : list log_arg)
| EvSwitch (task : Z) (to : stack_kind)
| EvKernelCalloc (size : Z) (tag : string) (p : Z)
| EvKernelFree (p : Z)
| EvBoxedCalloc (task : Z) (td : type_desc.t) (size : Z) (box : Z)
| EvBoxedFree (task : Z) (box : Z)
| EvTrack (task ptr : Z)
| EvUntrack (task ptr : Z)
| EvAssertFailed (msg : string)
| EvPersonality (on : stack_kind)
                (version actions exception_class ue_header context : Z).

Definition is_switch (e : event) : bool :=
  match e with EvSwitch _ _ => true | _ => false end.

Definition is_track (e : event) : bool :=
  match e with EvTrack _ _ => true | _ => false end.

Definition is_untrack (e : event) : bool :=
  match e with EvUntrack _ _ => true | _ => false end.

(** A C++ exception in flight: [throw this] of a failing task, or whatever
    foreign code threw. *)
Inductive exn := TaskFailure (task : Z) | Foreign (code : Z).

(** [<inttypes.h>] conversion specifiers (LP64). *)
Definition PRIxPTR : string := "lx".
Definition PRIuPTR : string := "lu".
Definition PRIdPTR : string := "ld".

(** What the translation unit takes from headers that are not part of it:
    [sizeof(rust_opaque_box)], [get_box_size] and [box_body] (rust_util.h and
    rust_task.h), and the C++ personality routine of the platform.  Beside
    its five arguments the routine has the execution context it runs in:
    the stack the thread is on, and the unwinder's own state, which it reads
    and updates. *)
Class Externs := {
  unwind_state : Type;
  sizeof_rust_opaque_box : Z;
  get_box_size : Z -> Z -> Z;
  box_body : Z -> Z;
  __gxx_personality_v0 :
    Z -> Z -> Z -> Z -> Z -> stack_kind -> unwind_state -> Z * unwind_state
}.

Section Upcalls.
Context {E : Externs}.

(** ** The world and the monad *)

Record world := mk_world {
  mem : gmap Z block.t;
  brk : Z;
  tasks : gmap Z rust_task.t;
  current_task : Z;
  tracker_on : bool;
  tracked : list Z;
  unwinder : unwind_state;
  trace : list event
}.

Definition set_mem (v : gmap Z block.t) (w : world) : world :=
  mk_world v (brk w) (tasks w) (current_task w) (tracker_on w) (tracked w)
           (unwinder w) (trace w).
Definition set_brk (v : Z) (w : world) : world :=
  mk_world (mem w) v (tasks w) (current_task w) (tracker_on w) (tracked w)
           (unwinder w) (trace w).
Definition set_tasks (v : gmap Z rust_task.t) (w : world) : world :=
  mk_world (mem w) (brk w) v (current_task w) (tracker_on w) (tracked w)
           (unwinder w) (trace w).
Definition set_tracked (v : list Z) (w : world) : world :=
  mk_world (mem w) (brk w) (tasks w) (current_task w) (tracker_on w) v
           (unwinder w) (trace w).
Definition set_unwinder (v : unwind_state) (w : world) : world :=
  mk_world (mem w) (brk w) (tasks w) (current_task w) (tracker_on w)
           (tracked w) v (trace w).
Definition set_trace (v : list event) (w : world) : world :=
  mk_world (mem w) (brk w) (tasks w) (current_task w) (tracker_on w)
           (tracked w) (unwinder w) v.

(** How a call ends: it returns, it leaves by a C++ exception, the process
    is aborted, or it dereferences a pointer that designates nothing. *)
Inductive outcome (A : Type) : Type :=
| Returned (a : A) (w : world)
| Unwinding (e : exn) (w : world)
| Aborted (w : world)
| Undefined.
Arguments Returned {A} a w.
Arguments Unwinding {A} e w.
Arguments Aborted {A} w.
Arguments Undefined {A}.

Definition M (A : Type) : Type := world -> outcome A.

Definition ret {A} (a : A) : M A := fun w => Returned a w.

Definition bind {A B} (m : M A) (k : A -> M B) : M B :=
  fun w =>
    match m w with
    | Returned a w' => k a w'
    | Unwinding e w' => Unwinding e w'
    | Aborted w' => Aborted w'
    | Undefined => Undefined
    end.

Notation "x <- m ;; k" := (bind m (fun x => k))
  (at level 100, m at next level, right associativity).
Notation "m ;; k" := (bind m (fun _ => k))
  (at level 100, right associativity).

Definition throw {A} (e : exn) : M A := fun w => Unwinding e w.

(** [abort()] of the C library. *)
Definition abort {A} : M A := fun w => Aborted w.

(** [try { body } catch (...) { handler }]. *)
Definition try_catch {A} (body : M A) (handler : M A) : M A :=
  fun w =>
    match body w with
    | Unwinding _ w' => handler w'
    | r => r
    end.

Definition emit (e : event) : M unit :=
  fun w => Returned tt (set_trace (trace w ++ [e]) w).

(** [assert] of the C library; the translation unit does not define
    [NDEBUG], so a failed assertion reports and aborts. *)
Definition assert (cond : bool) (msg : string) : M unit :=
  if cond then ret tt else (emit (EvAssertFailed msg);; abort).

(** Reading and writing through a [rust_task *]. *)
Definition deref_task (task : Z) : M rust_task.t :=
  fun w =>
    match tasks w !! task with
    | Some k => Returned k w
    | None => Undefined
    end.

Definition update_task (task : Z) (f : rust_task.t -> rust_task.t) : M unit :=
  fun w =>
    match tasks w !! task with
    | Some k => Returned tt (set_tasks (<[task := f k]> (tasks w)) w)
    | None => Undefined
    end.

(** Writing a header field through a [rust_opaque_box *]. *)
Definition write_box (p : Z) (f : rust_opaque_box.t -> rust_opaque_box.t)
  : M unit :=
  fun w =>
    match mem w !! p with
    | Some b =>
        Returned tt
          (set_mem (<[p := block.set_header (f (block.header b)) b]> (mem w)) w)
    | None => Undefined
    end.

(** ** Collaborators *)

(** Modelled from the spec: [rust_get_current_task] (rust_task.h), the
    process-wide lookup of the task that is running on this thread. *)
Definition rust_get_current_task : M Z :=
  fun w => Returned (current_task w) w.

(** Modelled from the spec: the [LOG] macro (rust_log.h), which hands a
    category and a formatted message of a task to the diagnostic sink,
    fire-and-forget. *)
Definition LOG (task : Z) (category fmt : string) (args : list log_arg)
  : M unit :=
  emit (EvLog task category fmt args).

(** Modelled from the spec: the [DLOG] macro (rust_log.h), the same through a
    scheduling loop. *)
Definition DLOG (sched_loop : Z) (category fmt : string) (args : list log_arg)
  : M unit :=
  emit (EvDLog sched_loop category fmt args).

(** The portable branch of the macro; the [__GNUC__] branch adds the name of
    the function and the return address to the message. *)
Definition LOG_UPCALL_ENTRY (task : Z) : M unit :=
  k <- deref_task task;;
  LOG task "upcall" ("> UPCALL task: %s @x%" +:+ PRIxPTR)
      [LStr (rust_task.name k); LPtr task].

(** Modelled from the spec: [rust_task::call_on_c_stack] (rust_task.h), the
    switch engine: transfer to the native stack of the task, run the handler
    on the argument block, transfer back to the stack that was active; a
    direct call with no switch when already on the native stack. *)
Definition call_on_c_stack {A} (task : Z) (args : A) (fn_ptr : A -> M A)
  : M A :=
  k <- deref_task task;;
  match rust_task.stack k with
  | CStack => fn_ptr args
  | RustStack =>
      update_task task (rust_task.set_stack CStack);;
      emit (EvSwitch task CStack);;
      args' <- fn_ptr args;;
      update_task task (rust_task.set_stack RustStack);;
      emit (EvSwitch task RustStack);;
      ret args'
  end.

(** Modelled from the spec: [rust_task::call_on_rust_stack] (rust_task.h),
    the mirror: it starts on the native stack, switches to the guest stack
    to run the function over the arguments, and switches back. *)
Definition call_on_rust_stack {A} (task : Z) (args : A) (fn_ptr : A -> M A)
  : M A :=
  k <- deref_task task;;
  let active := rust_task.stack k in
  update_task task (rust_task.set_stack RustStack);;
  emit (EvSwitch task RustStack);;
  args' <- fn_ptr args;;
  update_task task (rust_task.set_stack active);;
  emit (EvSwitch task active);;
  ret args'.

(** Modelled from the spec: [rust_task::on_rust_stack] (rust_task.h), the
    negation of "the task is on its native stack". *)
Definition on_rust_stack (task : Z) : M bool :=
  k <- deref_task task;;
  ret (match rust_task.stack k with RustStack => true | CStack => false end).

(** Modelled from the spec: [rust_task::fail] (rust_task.cpp): it marks the
    task as failing, records the expression, file and line the failure
    comes from, and begins the shutdown path of the task by unwinding; it
    does not return. *)
Definition fail (task : Z) (expr file : string) (line : Z) : M unit :=
  update_task task (rust_task.set_failure (Some (expr, file, line)));;
  throw (TaskFailure task).

(** Modelled from the spec: the memory behind [rust_kernel] and the boxed
    heap (memory_region.cpp).  A zeroed region of [n] bytes: a header of
    zeroes and zero bytes behind it. *)
Definition zeroed_block (n : Z) : block.t :=
  block.mk n rust_opaque_box.zeroed
           (replicate (Z.to_nat (n - sizeof_rust_opaque_box)) 0).

(** Modelled from the spec: a fresh zeroed region is handed out at the
    break, which moves past it. *)
Definition fresh_block (n : Z) : M Z :=
  fun w =>
    let p := brk w in
    Returned p (set_brk (p + Z.max n 1)
                        (set_mem (<[p := zeroed_block n]> (mem w)) w)).

(** Modelled from the spec: [task->kernel] (rust_task.h); every task points
    to the one kernel of the process, whose handle carries no data. *)
Definition task_kernel (task : Z) : M unit :=
  deref_task task;; ret tt.

(** Modelled from the spec: [rust_kernel::calloc] (rust_kernel.cpp), the
    [allocate_zeroed] of the process-wide allocator.  The allocator of the
    model is never exhausted. *)
Definition kernel_calloc (kernel : unit) (size : Z) (tag : string) : M Z :=
  p <- fresh_block size;;
  emit (EvKernelCalloc size tag p);;
  ret p.

(** Modelled from the spec: [rust_kernel::free] (rust_kernel.cpp), the
    [release] of the process-wide allocator. *)
Definition kernel_free (kernel : unit) (p : Z) : M unit :=
  emit (EvKernelFree p);;
  fun w => Returned tt (set_mem (delete p (mem w)) w).

(** Modelled from the spec: [boxed_region::calloc] (rust_boxed_region.cpp):
    total footprint from size and alignment, zeroed memory from the local
    heap of the task, a header with a tracked reference count (1 here), the
    type descriptor set and the links set to none; the header joins the
    live-allocation list of the task. *)
Definition boxed_calloc (task : Z) (td : type_desc.t) (size : Z) : M Z :=
  deref_task task;;
  box <- fresh_block (get_box_size size (type_desc.align td));;
  write_box box (fun _ => rust_opaque_box.mk 1 (Some td) 0 0);;
  update_task task (fun k =>
    rust_task.set_boxed
      (boxed_region.mk (box :: boxed_region.live_allocs (rust_task.boxed k)))
      k);;
  emit (EvBoxedCalloc task td size box);;
  ret box.

(** Modelled from the spec: removal of an address from a tracking list, at
    its first occurrence. *)
Fixpoint unlink (box : Z) (l : list Z) : list Z :=
  match l with
  | [] => []
  | x :: l' => if Z.eqb x box then l' else x :: unlink box l'
  end.

(** Modelled from the spec: [boxed_region::free] (rust_boxed_region.cpp): the
    box leaves the live-allocation list of the task and its memory is
    released to the local heap. *)
Definition boxed_free (task : Z) (box : Z) : M unit :=
  emit (EvBoxedFree task box);;
  update_task task (fun k =>
    rust_task.set_boxed
      (boxed_region.mk
         (unlink box (boxed_region.live_allocs (rust_task.boxed k))))
      k);;
  fun w => Returned tt (set_mem (delete box (mem w)) w).

(** Modelled from the spec: [debug::maybe_track_origin] (rust_debug.h), the
    [track] hook of the debug tracker, a no-op when the tracker is
    disabled. *)
Definition maybe_track_origin (task : Z) (ptr : Z) : M unit :=
  emit (EvTrack task ptr);;
  fun w =>
    if tracker_on w then Returned tt (set_tracked (ptr :: tracked w) w)
    else Returned tt w.

(** Modelled from the spec: [debug::maybe_untrack_origin] (rust_debug.h), the
    [untrack] hook. *)
Definition maybe_untrack_origin (task : Z) (ptr : Z) : M unit :=
  emit (EvUntrack task ptr);;
  fun w =>
    if tracker_on w then Returned tt (set_tracked (unlink ptr (tracked w)) w)
    else Returned tt w.

(** Modelled from the spec: [rust_task::next_stack] (rust_task.cpp): a new
    segment that fits the requested size and the argument block becomes the
    current one; its base is the new frame base. *)
Definition next_stack (task : Z) (stk_sz args_addr args_sz : Z) : M Z :=
  k <- deref_task task;;
  p <- fresh_block (stk_sz + args_sz);;
  update_task task
    (rust_task.set_stk (stk_seg.mk p (stk_sz + args_sz) :: rust_task.stk k));;
  ret p.

(** Modelled from the spec: [rust_task::prev_stack] (rust_task.cpp): the most
    recently acquired segment is retired and the previous one is current
    again. *)
Definition prev_stack (task : Z) : M unit :=
  k <- deref_task task;;
  match rust_task.stk k with
  | [] => fun _ => Undefined
  | seg :: rest =>
      update_task task (rust_task.set_stk rest);;
      fun w => Returned tt (set_mem (delete (stk_seg.base seg) (mem w)) w)
  end.

(** Modelled from the spec: the stack the thread is executing on, that of
    its current task; a thread that runs no task is on its native stack. *)
Definition executing_stack (w : world) : stack_kind :=
  match tasks w !! current_task w with
  | Some k => rust_task.stack k
  | None => CStack
  end.

(** A call of the personality routine of the platform: it runs on the stack
    the thread is executing on at the call, with the unwinder state of that
    moment, and the call is recorded with that stack. *)
Definition call_gxx_personality_v0
    (version actions exception_class ue_header context : Z) : M Z :=
  fun w =>
    let on := executing_stack w in
    let r := __gxx_personality_v0 version actions exception_class ue_header
                                  context on (unwinder w) in
    Returned (fst r)
      (set_trace
         (trace w ++
          [EvPersonality on version actions exception_class ue_header context])
         (set_unwinder (snd r) w)).

(** ** The upcalls *)

Definition call_upcall_on_c_stack {A} (task : Z) (args : A) (fn_ptr : A -> M A)
  : M A :=
  call_on_c_stack task args fn_ptr.

Definition UPCALL_SWITCH_STACK {A} (T : Z) (a : A) (F : A -> M A) : M A :=
  call_upcall_on_c_stack T a F.

Definition upcall_call_shim_on_c_stack {A} (args : A) (fn_ptr : A -> M A)
  : M A :=
  task <- rust_get_current_task;;
  try_catch
    (call_on_c_stack task args fn_ptr)
    (assert false "Foreign code threw an exception";; ret args).

Definition upcall_call_shim_on_rust_stack {A} (args : A) (fn_ptr : A -> M A)
  : M A :=
  task <- rust_get_current_task;;
  try_catch
    (call_on_rust_stack task args fn_ptr)
    (assert false "Rust task failed after reentering the Rust stack";;
     ret args).

Definition upcall_s_fail (args : s_fail_args.t) : M s_fail_args.t :=
  let task := s_fail_args.task args in
  LOG_UPCALL_ENTRY task;;
  fail task (s_fail_args.expr args) (s_fail_args.file args)
       (s_fail_args.line args);;
  ret args.

Definition upcall_fail (expr file : string) (line : Z) : M unit :=
  task <- rust_get_current_task;;
  let args := s_fail_args.mk task expr file line in
  UPCALL_SWITCH_STACK task args upcall_s_fail;;
  ret tt.

Definition rust_upcall_fail (expr file : string) (line : Z) : M unit :=
  upcall_fail expr file line.

Definition upcall_s_trace (args : s_trace_args.t) : M s_trace_args.t :=
  let task := s_trace_args.task args in
  LOG_UPCALL_ENTRY task;;
  LOG task "trace" "Trace %s:%d: %s"
      [LStr (s_trace_args.file args); LNum (s_trace_args.line args);
       LStr (s_trace_args.msg args)];;
  ret args.

Definition upcall_trace (msg file : string) (line : Z) : M unit :=
  task <- rust_get_current_task;;
  let args := s_trace_args.mk task msg file line in
  UPCALL_SWITCH_STACK task args upcall_s_trace;;
  ret tt.

Definition upcall_s_exchange_malloc (args : s_exchange_malloc_args.t)
  : M s_exchange_malloc_args.t :=
  let task := s_exchange_malloc_args.task args in
  LOG_UPCALL_ENTRY task;;
  let total_size :=
    get_box_size (s_exchange_malloc_args.size args)
                 (type_desc.align (s_exchange_malloc_args.td args)) in
  kernel <- task_kernel task;;
  p <- kernel_calloc kernel total_size "exchange malloc";;
  let header := p in
  write_box header (rust_opaque_box.set_ref_count (-1));;
  write_box header
    (rust_opaque_box.set_td (Some (s_exchange_malloc_args.td args)));;
  write_box header (rust_opaque_box.set_prev 0);;
  write_box header (rust_opaque_box.set_next 0);;
  LOG task "mem" ("exchange malloced %p of size %" +:+ PRIuPTR)
      [LPtr header; LNum (s_exchange_malloc_args.size args)];;
  ret (s_exchange_malloc_args.set_retval header args).

Definition upcall_exchange_malloc (td : type_desc.t) (size : Z) : M Z :=
  task <- rust_get_current_task;;
  let args := s_exchange_malloc_args.mk task 0 td size in
  args <- UPCALL_SWITCH_STACK task args upcall_s_exchange_malloc;;
  ret (s_exchange_malloc_args.retval args).

Definition rust_upcall_exchange_malloc (td : type_desc.t) (size : Z) : M Z :=
  upcall_exchange_malloc td size.

Definition upcall_s_exchange_free (args : s_exchange_free_args.t)
  : M s_exchange_free_args.t :=
  let task := s_exchange_free_args.task args in
  LOG_UPCALL_ENTRY task;;
  LOG task "mem" "exchange freed %p" [LPtr (s_exchange_free_args.ptr args)];;
  kernel <- task_kernel task;;
  kernel_free kernel (s_exchange_free_args.ptr args);;
  ret args.

Definition upcall_exchange_free (ptr : Z) : M unit :=
  task <- rust_get_current_task;;
  let args := s_exchange_free_args.mk task ptr in
  UPCALL_SWITCH_STACK task args upcall_s_exchange_free;;
  ret tt.

Definition rust_upcall_exchange_free (ptr : Z) : M unit :=
  upcall_exchange_free ptr.

Definition upcall_s_malloc (args : s_malloc_args.t) : M s_malloc_args.t :=
  let task := s_malloc_args.task args in
  LOG_UPCALL_ENTRY task;;
  LOG task "mem" ("upcall malloc(0x%" +:+ PRIxPTR +:+ ")")
      [LTd (s_malloc_args.td args)];;
  box <- boxed_calloc task (s_malloc_args.td args) (s_malloc_args.size args);;
  let body := box_body box in
  maybe_track_origin task box;;
  LOG task "mem"
      ("upcall malloc(0x%" +:+ PRIxPTR +:+ ") = box 0x%" +:+ PRIxPTR
       +:+ " with body 0x%" +:+ PRIxPTR)
      [LTd (s_malloc_args.td args); LPtr box; LPtr body];;
  ret (s_malloc_args.set_retval box args).

Definition upcall_malloc (td : type_desc.t) (size : Z) : M Z :=
  task <- rust_get_current_task;;
  let args := s_malloc_args.mk task 0 td size in
  args <- UPCALL_SWITCH_STACK task args upcall_s_malloc;;
  ret (s_malloc_args.retval args).

Definition rust_upcall_malloc (td : type_desc.t) (size : Z) : M Z :=
  upcall_malloc td size.

Definition upcall_s_free (args : s_free_args.t) : M s_free_args.t :=
  let task := s_free_args.task args in
  LOG_UPCALL_ENTRY task;;
  k <- deref_task task;;
  let sched_loop := rust_task.sched_loop k in
  DLOG sched_loop "mem"
       ("upcall free(0x%" +:+ PRIxPTR +:+ ", is_gc=%" +:+ PRIdPTR +:+ ")")
       [LPtr (s_free_args.ptr args)];;
  maybe_untrack_origin task (s_free_args.ptr args);;
  let box := s_free_args.ptr args in
  boxed_free task box;;
  ret args.

Definition upcall_free (ptr : Z) : M unit :=
  task <- rust_get_current_task;;
  let args := s_free_args.mk task ptr in
  UPCALL_SWITCH_STACK task args upcall_s_free;;
  ret tt.

Definition rust_upcall_free (ptr : Z) : M unit :=
  upcall_free ptr.

Definition upcall_validate_box (ptr : Z) : M unit :=
  abort.

Definition upcall_s_rust_personality (args : s_rust_personality_args.t)
  : M s_rust_personality_args.t :=
  r <- call_gxx_personality_v0
         (s_rust_personality_args.version args)
         (s_rust_personality_args.actions args)
         (s_rust_personality_args.exception_class args)
         (s_rust_personality_args.ue_header args)
         (s_rust_personality_args.context args);;
  ret (s_rust_personality_args.set_retval r args).

Definition upcall_rust_personality
    (version actions exception_class ue_header context : Z) : M Z :=
  let args :=
    s_rust_personality_args.mk 0 version actions exception_class ue_header
                               context in
  task <- rust_get_current_task;;
  on_rust <- on_rust_stack task;;
  args <- (if on_rust : bool
           then UPCALL_SWITCH_STACK task args upcall_s_rust_personality
           else upcall_s_rust_personality args);;
  ret (s_rust_personality_args.retval args).

Definition upcall_log_type (tydesc : type_desc.t) (data : Z) (level : Z)
  : M unit :=
  abort.

Definition upcall_new_stack (stk_sz args_addr args_sz : Z) : M Z :=
  task <- rust_get_current_task;;
  next_stack task stk_sz args_addr args_sz.

Definition upcall_del_stack : M unit :=
  task <- rust_get_current_task;;
  prev_stack task.

End Upcalls.

Arguments Returned {E A} a w.
Arguments Unwinding {E A} e w.
Arguments Aborted {E A} w.
Arguments Undefined {E A}.

Definition around_switch (task : Z) (k : rust_task.t) (evs : list event)
  : list event :=
  match rust_task.stack k with
  | CStack => evs
  | RustStack => EvSwitch task CStack :: evs ++ [EvSwitch task RustStack]
  end.

Definition entry_event (task : Z) (k : rust_task.t) : event :=
  EvLog task "upcall" ("> UPCALL task: %s @x%" +:+ PRIxPTR)
        [LStr (rust_task.name k); LPtr task].

(** The world a handler observes once [call_on_c_stack] has transferred to
    the native stack, and once [call_on_rust_stack] has transferred to the
    guest stack. *)
Definition entered_c_stack {E : Externs} (task : Z) (k : rust_task.t)
    (w : world) : world :=
  match rust_task.stack k with
  | CStack => w
  | RustStack =>
      set_trace (trace w ++ [EvSwitch task CStack])
        (set_tasks (<[task := rust_task.set_stack CStack k]> (tasks w)) w)
  end.

Definition entered_rust_stack {E : Externs} (task : Z) (k : rust_task.t)
    (w : world) : world :=
  set_trace (trace w ++ [EvSwitch task RustStack])
    (set_tasks (<[task := rust_task.set_stack RustStack k]> (tasks w)) w).

(** The world once [call_on_c_stack] has transferred back from a handler that
    left the world [w1] with the task record [k1]: as [w1] when the call was
    entered on the native stack, else with the task back on the guest
    stack. *)
Definition left_c_stack {E : Externs} (task : Z) (k k1 : rust_task.t)
    (w1 : world) : world :=
  match rust_task.stack k with
  | CStack => w1
  | RustStack =>
      set_trace (trace w1 ++ [EvSwitch task RustStack])
        (set_tasks (<[task := rust_task.set_stack RustStack k1]> (tasks w1))
                   w1)
  end.

(** An entry point is dispatched to its handler when its outcome in [w] is
    that of the handler run on the argument block in the world entered on
    the native stack, where the thread executes on the C stack, followed by
    the transfer back; the handler returns, switches no stack itself, and
    the entry point returns the [result] read out of the record. *)
Definition dispatched {E : Externs} {A R : Type} (entry : M R)
    (handler : A -> M A) (args : A) (result : A -> R) (w : world)
    (k : rust_task.t) : Prop :=
  exists args' w1 k1 hevs,
    executing_stack (entered_c_stack (current_task w) k w) = CStack /\
    handler args (entered_c_stack (current_task w) k w) = Returned args' w1 /\
    trace w1 = trace (entered_c_stack (current_task w) k w) ++ hevs /\
    hevs <> [] /\
    List.filter is_switch hevs = [] /\
    tasks w1 !! current_task w = Some k1 /\
    rust_task.stack k1 = CStack /\
    entry w =
      Returned (result args') (left_c_stack (current_task w) k k1 w1) /\
    trace (left_c_stack (current_task w) k k1 w1) =
      trace w ++ around_switch (current_task w) k hevs /\
    executing_stack (left_c_stack (current_task w) k k1 w1) =
      rust_task.stack k.

(** The world after a failed assertion has reported. *)
Definition assert_failed {E : Externs} (msg : string) (w : world) : world :=
  set_trace (trace w ++ [EvAssertFailed msg]) w.

(** The frame base generated code is running on: the base of the current
    segment of the guest stack. *)
Definition frame_base (k : rust_task.t) : option Z :=
  match rust_task.stk k with
  | [] => None
  | seg :: _ => Some (stk_seg.base seg)
  end.

(** The live-allocation list of a task of the world. *)
Definition live_list {E : Externs} (w : world) (task : Z) : option (list Z) :=
  match tasks w !! task with
  | Some k => Some (boxed_region.live_allocs (rust_task.boxed k))
  | None => None
  end.

(** ** A sample platform and world for concrete runs *)

Definition sample : Externs := {|
  unwind_state := list Z;
  sizeof_rust_opaque_box := 32;
  get_box_size := fun body_size body_align =>
    (32 + body_align - 1) / body_align * body_align + body_size;
  box_body := fun box => box + 32;
  __gxx_personality_v0 :=
    fun version actions exception_class ue_header context on st =>
      (match on with
       | CStack => if Z.testbit actions 1 then 6 else 8
       | RustStack => 3
       end, ue_header :: st)
|}.

Definition sample_td : type_desc.t := type_desc.mk 16 8.

Definition sample_task (s : stack_kind) : rust_task.t :=
  rust_task.mk "main" 7 (boxed_region.mk [4000]) s [stk_seg.mk 2048 1024] None.

Definition sample_world (s : stack_kind) (tracker : bool) : @world sample :=
  @mk_world sample
    {[ 4000 := block.mk 40 (rust_opaque_box.mk 1 (Some sample_td) 0 0)
                        [0; 0; 0; 0; 0; 0; 0; 0] ]}
    4096 {[ 1 := sample_task s ]} 1 tracker [] [] [].

Section UpcallFacts.
Context {E : Externs}.

Lemma set_stack_round_trip (k : rust_task.t) :
  k = rust_task.set_stack (rust_task.stack k) (rust_task.set_stack CStack k).
Proof. destruct k; reflexivity. Qed.

Lemma restore_rust_stack (m : gmap Z rust_task.t) (t : Z) (k : rust_task.t) :
  m !! t = Some k ->
  rust_task.stack k = RustStack ->
  <[t := rust_task.set_stack RustStack (rust_task.set_stack CStack k)]>
    (<[t := rust_task.set_stack CStack k]> m) = m.
Proof.
  intros H Hs. rewrite insert_insert_eq.
  apply insert_id. rewrite H. destruct k; cbn in *; subst; reflexivity.
Qed.

Ltac unfold_upcalls :=
  unfold upcall_exchange_malloc, upcall_exchange_free, upcall_malloc,
    upcall_free, upcall_fail, upcall_trace, upcall_rust_personality,
    upcall_new_stack, upcall_del_stack,
    upcall_s_exchange_malloc, upcall_s_exchange_free, upcall_s_malloc,
    upcall_s_free, upcall_s_fail, upcall_s_trace, upcall_s_rust_personality,
    UPCALL_SWITCH_STACK, call_upcall_on_c_stack, call_on_c_stack,
    call_on_rust_stack, on_rust_stack, fail, next_stack, prev_stack,
    LOG_UPCALL_ENTRY, LOG, DLOG, task_kernel, kernel_calloc, kernel_free,
    boxed_calloc, boxed_free, maybe_track_origin, maybe_untrack_origin,
    call_gxx_personality_v0, executing_stack, fresh_block, write_box,
    update_task, deref_task,
    emit, throw, abort, rust_get_current_task, bind, ret.

Ltac crunch H :=
  repeat (progress (cbn; rewrite ?lookup_insert_eq, ?H)).

Ltac crunch2 H H' :=
  repeat (progress (cbn; rewrite ?lookup_insert_eq, ?H, ?H')).

Lemma world_ext (w1 w2 : world) :
  mem w1 = mem w2 ->
  brk w1 = brk w2 ->
  tasks w1 = tasks w2 ->
  current_task w1 = current_task w2 ->
  tracker_on w1 = tracker_on w2 ->
  tracked w1 = tracked w2 ->
  unwinder w1 = unwinder w2 ->
  trace w1 = trace w2 ->
  w1 = w2.
Proof. destruct w1, w2; cbn; intros; subst; reflexivity. Qed.

Ltac tidy :=
  f_equal; apply world_ext; cbn;
  rewrite ?insert_insert_eq, <- ?app_assoc; cbn; try reflexivity.

Lemma upcall_exchange_malloc_run (td : type_desc.t) (size : Z) (w : world)
    (k : rust_task.t) :
  tasks w !! current_task w = Some k ->
  let total_size := get_box_size size (type_desc.align td) in
  upcall_exchange_malloc td size w =
  Returned (brk w)
    (mk_world
       (<[brk w := block.mk total_size
                     (rust_opaque_box.mk (-1) (Some td) 0 0)
                     (replicate (Z.to_nat (total_size - sizeof_rust_opaque_box))
                                0)]> (mem w))
       (brk w + Z.max total_size 1)
       (tasks w) (current_task w) (tracker_on w) (tracked w) (unwinder w)
       (trace w ++
        around_switch (current_task w) k
          [entry_event (current_task w) k;
           EvKernelCalloc total_size "exchange malloc" (brk w);
           EvLog (current_task w) "mem"
                 ("exchange malloced %p of size %" +:+ PRIuPTR)
                 [LPtr (brk w); LNum size]])).
Proof.
  intros Hk total_size. unfold_upcalls. unfold around_switch.
  crunch Hk. destruct (rust_task.stack k) eqn:Hs; crunch Hk.
  - tidy. apply insert_id. rewrite Hk, <- Hs. f_equal.
    apply set_stack_round_trip.
  - tidy.
Qed.

Lemma upcall_exchange_free_run (ptr : Z) (w : world) (k : rust_task.t) :
  tasks w !! current_task w = Some k ->
  upcall_exchange_free ptr w =
  Returned tt
    (mk_world
       (delete ptr (mem w)) (brk w) (tasks w) (current_task w) (tracker_on w)
       (tracked w) (unwinder w)
       (trace w ++
        around_switch (current_task w) k
          [entry_event (current_task w) k;
           EvLog (current_task w) "mem" "exchange freed %p" [LPtr ptr];
           EvKernelFree ptr])).
Proof.
  intros Hk. unfold_upcalls. unfold around_switch.
  crunch Hk. destruct (rust_task.stack k) eqn:Hs; crunch Hk.
  - tidy. apply insert_id. rewrite Hk, <- Hs. f_equal.
    apply set_stack_round_trip.
  - tidy.
Qed.

Lemma upcall_malloc_run (td : type_desc.t) (size : Z) (w : world)
    (k : rust_task.t) :
  tasks w !! current_task w = Some k ->
  let total_size := get_box_size size (type_desc.align td) in
  let box := brk w in
  upcall_malloc td size w =
  Returned box
    (mk_world
       (<[box := block.mk total_size (rust_opaque_box.mk 1 (Some td) 0 0)
                   (replicate (Z.to_nat (total_size - sizeof_rust_opaque_box))
                              0)]> (mem w))
       (box + Z.max total_size 1)
       (<[current_task w :=
            rust_task.set_boxed
              (boxed_region.mk
                 (box :: boxed_region.live_allocs (rust_task.boxed k))) k]>
          (tasks w))
       (current_task w) (tracker_on w)
       (if tracker_on w then box :: tracked w else tracked w)
       (unwinder w)
       (trace w ++
        around_switch (current_task w) k
          [entry_event (current_task w) k;
           EvLog (current_task w) "mem"
                 ("upcall malloc(0x%" +:+ PRIxPTR +:+ ")") [LTd td];
           EvBoxedCalloc (current_task w) td size box;
           EvTrack (current_task w) box;
           EvLog (current_task w) "mem"
                 ("upcall malloc(0x%" +:+ PRIxPTR +:+ ") = box 0x%"
                  +:+ PRIxPTR +:+ " with body 0x%" +:+ PRIxPTR)
                 [LTd td; LPtr box; LPtr (box_body box)]])).
Proof.
  intros Hk total_size box. unfold_upcalls. unfold around_switch.
  destruct (tracker_on w) eqn:Ht;
    (crunch2 Hk Ht; destruct (rust_task.stack k) eqn:Hs; crunch2 Hk Ht; tidy;
     rewrite ?Ht; try reflexivity;
     destruct k; cbn in *; subst; reflexivity).
Qed.

Lemma upcall_free_run (ptr : Z) (w : world) (k : rust_task.t) :
  tasks w !! current_task w = Some k ->
  upcall_free ptr w =
  Returned tt
    (mk_world
       (delete ptr (mem w)) (brk w)
       (<[current_task w :=
            rust_task.set_boxed
              (boxed_region.mk
                 (unlink ptr (boxed_region.live_allocs (rust_task.boxed k))))
              k]> (tasks w))
       (current_task w) (tracker_on w)
       (if tracker_on w then unlink ptr (tracked w) else tracked w)
       (unwinder w)
       (trace w ++
        around_switch (current_task w) k
          [entry_event (current_task w) k;
           EvDLog (rust_task.sched_loop k) "mem"
                  ("upcall free(0x%" +:+ PRIxPTR +:+ ", is_gc=%" +:+ PRIdPTR
                   +:+ ")") [LPtr ptr];
           EvUntrack (current_task w) ptr;
           EvBoxedFree (current_task w) ptr])).
Proof.
  intros Hk. unfold_upcalls. unfold around_switch.
  destruct (tracker_on w) eqn:Ht;
    (crunch2 Hk Ht; destruct (rust_task.stack k) eqn:Hs; crunch2 Hk Ht; tidy;
     rewrite ?Ht; try reflexivity;
     destruct k; cbn in *; subst; reflexivity).
Qed.

(** ** The exchange heap *)

(** C1: for every type descriptor and requested size, exchange allocate
    computes the footprint [get_box_size size td->align], obtains zeroed
    memory of that footprint from the allocator of the kernel, and returns
    the address of a header with reference count -1, type descriptor [td]
    and null [prev] and [next] links; no task is touched. *)
Theorem exchange_malloc_header (td : type_desc.t) (size : Z) (w : world)
    (k : rust_task.t) :
  tasks w !! current_task w = Some k ->
  exists header w' b,
    upcall_exchange_malloc td size w = Returned header w' /\
    trace w' =
      trace w ++
      around_switch (current_task w) k
        [entry_event (current_task w) k;
         EvKernelCalloc (get_box_size size (type_desc.align td))
                        "exchange malloc" header;
         EvLog (current_task w) "mem"
               ("exchange malloced %p of size %" +:+ PRIuPTR)
               [LPtr header; LNum size]] /\
    mem w' !! header = Some b /\
    block.footprint b = get_box_size size (type_desc.align td) /\
    block.body b =
      replicate (Z.to_nat (get_box_size size (type_desc.align td)
                           - sizeof_rust_opaque_box)) 0 /\
    rust_opaque_box.ref_count (block.header b) = -1 /\
    rust_opaque_box.td (block.header b) = Some td /\
    rust_opaque_box.prev (block.header b) = 0 /\
    rust_opaque_box.next (block.header b) = 0 /\
    tasks w' = tasks w.
Proof.
  intros Hk. rewrite (upcall_exchange_malloc_run td size w k Hk).
  eexists _, _, _. split; [reflexivity |]. cbn.
  split; [reflexivity |]. split; [apply lookup_insert_eq |].
  cbn. repeat split.
Qed.

(** ** Aliases and unimplemented hooks *)

(** C7: each [rust_upcall_*] alias behaves, on every input and in every
    world, exactly as the [upcall_*] entry point of the same name. *)
Theorem aliases_agree (expr file : string) (line : Z) (td : type_desc.t)
    (size ptr : Z) (w : world) :
  rust_upcall_fail expr file line w = upcall_fail expr file line w /\
  rust_upcall_malloc td size w = upcall_malloc td size w /\
  rust_upcall_exchange_malloc td size w = upcall_exchange_malloc td size w /\
  rust_upcall_exchange_free ptr w = upcall_exchange_free ptr w /\
  rust_upcall_free ptr w = upcall_free ptr w.
Proof.
  unfold rust_upcall_fail, rust_upcall_malloc, rust_upcall_exchange_malloc,
    rust_upcall_exchange_free, rust_upcall_free.
  repeat split.
Qed.

(** C10: box validation and type logging abort the process on every input,
    in every world, and leave the world as they found it. *)
Theorem unimplemented_hooks_abort (ptr : Z) (tydesc : type_desc.t)
    (data level : Z) (w : world) :
  upcall_validate_box ptr w = Aborted w /\
  upcall_log_type tydesc data level w = Aborted w.
Proof. split; reflexivity. Qed.

(** ** Failure and unwinding *)

(** C5: the fail upcall marks the current task as failed, with the
    expression, file and line it was given, and leaves by unwinding: it does
    not return to its caller. *)
Theorem fail_records_and_unwinds (expr file : string) (line : Z) (w : world)
    (k : rust_task.t) :
  tasks w !! current_task w = Some k ->
  exists w' k',
    upcall_fail expr file line w
    = Unwinding (TaskFailure (current_task w)) w' /\
    tasks w' !! current_task w = Some k' /\
    rust_task.failure k' = Some (expr, file, line) /\
    (forall a w'', upcall_fail expr file line w <> Returned a w'').
Proof.
  intros Hk. unfold_upcalls.
  crunch Hk. destruct (rust_task.stack k) eqn:Hs; crunch Hk.
  - eexists _, _. split; [reflexivity |]. cbn.
    rewrite lookup_insert_eq. repeat split. discriminate.
  - eexists _, _. split; [reflexivity |]. cbn.
    rewrite lookup_insert_eq. repeat split. discriminate.
Qed.

(** C2: on the same inputs and the same unwinder state, the personality
    wrapper entered on the guest stack and the one entered on the native
    stack both return what the native routine returns when it runs on the
    native stack, and leave the state it leaves; the first switches to the
    native stack, runs the routine there and switches back, the second runs
    it where it is, with no switch.  The routine may depend on the stack it
    runs on: the two paths agree because both run it on the native one. *)
Theorem personality_paths_agree
    (version actions exception_class ue_header context : Z)
    (wg wn : world) (kg kn : rust_task.t) :
  tasks wg !! current_task wg = Some kg ->
  rust_task.stack kg = RustStack ->
  tasks wn !! current_task wn = Some kn ->
  rust_task.stack kn = CStack ->
  unwinder wg = unwinder wn ->
  let native :=
    __gxx_personality_v0 version actions exception_class ue_header context
                         CStack (unwinder wn) in
  exists wg' wn',
    upcall_rust_personality version actions exception_class ue_header context
                            wg = Returned (fst native) wg' /\
    upcall_rust_personality version actions exception_class ue_header context
                            wn = Returned (fst native) wn' /\
    unwinder wg' = snd native /\
    unwinder wn' = snd native /\
    trace wg' =
      trace wg ++
      [EvSwitch (current_task wg) CStack;
       EvPersonality CStack version actions exception_class ue_header context;
       EvSwitch (current_task wg) RustStack] /\
    trace wn' =
      trace wn ++
      [EvPersonality CStack version actions exception_class ue_header
                     context] /\
    tasks wg' = tasks wg /\
    tasks wn' = tasks wn.
Proof.
  intros Hg Hsg Hn Hsn Hu native. subst native. rewrite <- Hu.
  eexists _, _. unfold_upcalls.
  crunch2 Hg Hsg. crunch2 Hn Hsn.
  split; [reflexivity |]. split; [rewrite Hu; reflexivity |].
  cbn. rewrite <- !app_assoc, Hu. repeat split.
  rewrite insert_insert_eq. apply insert_id.
  rewrite Hg, <- Hsg. f_equal. apply set_stack_round_trip.
Qed.

(** C3: when the function a boundary-crossing entry point invokes leaves by
    an exception, the entry point ends in a process abort after the failed
    assertion has reported; neither entry point ever lets an exception out
    to its caller. *)
Theorem shim_failure_aborts {A : Type} (args : A) (fn_ptr : A -> M A)
    (w : world) (k : rust_task.t) :
  tasks w !! current_task w = Some k ->
  (forall e w1,
     fn_ptr args (entered_c_stack (current_task w) k w) = Unwinding e w1 ->
     upcall_call_shim_on_c_stack args fn_ptr w =
     Aborted (assert_failed "Foreign code threw an exception" w1)) /\
  (forall e w1,
     fn_ptr args (entered_rust_stack (current_task w) k w) = Unwinding e w1 ->
     upcall_call_shim_on_rust_stack args fn_ptr w =
     Aborted
       (assert_failed "Rust task failed after reentering the Rust stack" w1)) /\
  (forall e w1, upcall_call_shim_on_c_stack args fn_ptr w <> Unwinding e w1) /\
  (forall e w1, upcall_call_shim_on_rust_stack args fn_ptr w <> Unwinding e w1).
Proof.
  intros Hk. repeat split.
  - intros e w1 Hfn.
    unfold upcall_call_shim_on_c_stack, try_catch, call_on_c_stack,
      entered_c_stack in *.
    unfold bind at 1. unfold rust_get_current_task at 1.
    unfold bind at 1. unfold deref_task at 1. rewrite Hk.
    destruct (rust_task.stack k).
    + unfold bind at 1. unfold update_task at 1. rewrite Hk.
      unfold bind at 1. unfold emit at 1. cbn [trace set_tasks].
      unfold bind at 1.
      cbn in Hfn. cbn. rewrite Hfn. reflexivity.
    + rewrite Hfn. reflexivity.
  - intros e w1 Hfn.
    unfold upcall_call_shim_on_rust_stack, try_catch, call_on_rust_stack,
      entered_rust_stack in *.
    unfold bind at 1. unfold rust_get_current_task at 1.
    unfold bind at 1. unfold deref_task at 1. rewrite Hk.
    unfold bind at 1. unfold update_task at 1. rewrite Hk.
    unfold bind at 1. unfold emit at 1. cbn [trace set_tasks].
    unfold bind at 1.
    cbn in Hfn. cbn. rewrite Hfn. reflexivity.
  - intros e w1.
    unfold upcall_call_shim_on_c_stack, try_catch, bind at 1,
      rust_get_current_task.
    destruct (call_on_c_stack (current_task w) args fn_ptr w); discriminate.
  - intros e w1.
    unfold upcall_call_shim_on_rust_stack, try_catch, bind at 1,
      rust_get_current_task.
    destruct (call_on_rust_stack (current_task w) args fn_ptr w); discriminate.
Qed.

(** ** The task-local heap *)

Lemma unlink_head (box : Z) (l : list Z) : unlink box (box :: l) = l.
Proof. cbn. rewrite Z.eqb_refl. reflexivity. Qed.

(** C4: task-local allocate followed at once by task-local free of the
    header it returned leaves the live-allocation list of the task, and the
    whole task table, as they were before the allocate: same entries, same
    count. *)
Theorem malloc_then_free_restores_live_list (td : type_desc.t) (size : Z)
    (w : world) (k : rust_task.t) :
  tasks w !! current_task w = Some k ->
  exists box w1 w2,
    upcall_malloc td size w = Returned box w1 /\
    upcall_free box w1 = Returned tt w2 /\
    live_list w1 (current_task w) =
      Some (box :: boxed_region.live_allocs (rust_task.boxed k)) /\
    live_list w2 (current_task w) =
      Some (boxed_region.live_allocs (rust_task.boxed k)) /\
    (forall task, live_list w2 task = live_list w task) /\
    (forall task l l',
       live_list w task = Some l -> live_list w2 task = Some l' ->
       length l' = length l /\ forall p, p ∈ l' <-> p ∈ l) /\
    tasks w2 = tasks w.
Proof.
  intros Hk. rewrite (upcall_malloc_run td size w k Hk).
  eexists _, _, _. split; [reflexivity |].
  assert (Htasks :
    <[current_task w :=
        rust_task.set_boxed
          (boxed_region.mk
             (unlink (brk w)
                (brk w :: boxed_region.live_allocs (rust_task.boxed k))))
          (rust_task.set_boxed
             (boxed_region.mk
                (brk w :: boxed_region.live_allocs (rust_task.boxed k))) k)]>
      (<[current_task w :=
           rust_task.set_boxed
             (boxed_region.mk
                (brk w :: boxed_region.live_allocs (rust_task.boxed k))) k]>
         (tasks w)) = tasks w).
  { rewrite insert_insert_eq, unlink_head. apply insert_id.
    rewrite Hk. destruct k as [? ? [?] ? ? ?]. reflexivity. }
  erewrite upcall_free_run by (cbn; apply lookup_insert_eq).
  split; [reflexivity |]. cbn [tasks current_task rust_task.boxed
    rust_task.set_boxed boxed_region.live_allocs].
  rewrite Htasks. unfold live_list. cbn [tasks].
  rewrite lookup_insert_eq, Hk. cbn.
  repeat split; congruence.
Qed.

(** ** The debug tracker *)

Lemma in_around_switch (task : Z) (k : rust_task.t) (e : event)
    (evs : list event) :
  e ∈ evs -> e ∈ around_switch task k evs.
Proof.
  intros He. unfold around_switch. destruct (rust_task.stack k); [| exact He].
  apply elem_of_cons. right. apply elem_of_app. left. exact He.
Qed.

Lemma existsb_around_switch (f : event -> bool) (task : Z) (k : rust_task.t)
    (evs : list event) :
  (forall t s, f (EvSwitch t s) = false) ->
  existsb f (around_switch task k evs) = existsb f evs.
Proof.
  intros Hf. unfold around_switch.
  destruct (rust_task.stack k); [| reflexivity].
  cbn. rewrite Hf, existsb_app. cbn. rewrite Hf. cbn.
  rewrite orb_false_r. reflexivity.
Qed.

(** C6, as the code has it: the task-local allocate upcall calls the track
    hook on the new header and the task-local free upcall calls the untrack
    hook on the freed pointer, whether the tracker is enabled or not; the
    exchange allocate and exchange free upcalls call neither hook. *)
Theorem tracker_hooks_on_task_local_paths (td : type_desc.t) (size ptr : Z)
    (w : world) (k : rust_task.t) :
  tasks w !! current_task w = Some k ->
  (exists box w' evs,
     upcall_malloc td size w = Returned box w' /\
     trace w' = trace w ++ evs /\
     EvTrack (current_task w) box ∈ evs) /\
  (exists w' evs,
     upcall_free ptr w = Returned tt w' /\
     trace w' = trace w ++ evs /\
     EvUntrack (current_task w) ptr ∈ evs) /\
  (exists header w' evs,
     upcall_exchange_malloc td size w = Returned header w' /\
     trace w' = trace w ++ evs /\
     existsb is_track evs = false /\ existsb is_untrack evs = false) /\
  (exists w' evs,
     upcall_exchange_free ptr w = Returned tt w' /\
     trace w' = trace w ++ evs /\
     existsb is_track evs = false /\ existsb is_untrack evs = false).
Proof.
  intros Hk. repeat apply conj.
  - rewrite (upcall_malloc_run td size w k Hk).
    eexists _, _, _. split; [reflexivity |]. split; [reflexivity |].
    apply in_around_switch. set_solver.
  - rewrite (upcall_free_run ptr w k Hk).
    eexists _, _. split; [reflexivity |]. split; [reflexivity |].
    apply in_around_switch. set_solver.
  - rewrite (upcall_exchange_malloc_run td size w k Hk).
    eexists _, _, _. split; [reflexivity |]. split; [reflexivity |].
    rewrite !existsb_around_switch by reflexivity. split; reflexivity.
  - rewrite (upcall_exchange_free_run ptr w k Hk).
    eexists _, _. split; [reflexivity |]. split; [reflexivity |].
    rewrite !existsb_around_switch by reflexivity. split; reflexivity.
Qed.

(** ** No run-time check of the allocation policy *)

(** C8: for every pointer and every state of memory and of the task,
    exchange free returns after handing that pointer to the release of the
    kernel allocator, and what it does is the same whatever the block at the
    pointer holds; task-local free returns after handing that pointer to the
    untrack hook and to the boxed heap of the task, whatever the reference
    count of the header and whether or not the pointer is in the
    live-allocation list.  Neither aborts, unwinds or inspects a header. *)
Theorem free_paths_do_not_check (ptr : Z) (w : world) (k : rust_task.t) :
  tasks w !! current_task w = Some k ->
  (exists w',
     upcall_exchange_free ptr w = Returned tt w' /\
     trace w' =
       trace w ++
       around_switch (current_task w) k
         [entry_event (current_task w) k;
          EvLog (current_task w) "mem" "exchange freed %p" [LPtr ptr];
          EvKernelFree ptr] /\
     mem w' = delete ptr (mem w) /\
     tasks w' = tasks w) /\
  (forall b,
     upcall_exchange_free ptr (set_mem (<[ptr := b]> (mem w)) w) =
     upcall_exchange_free ptr w) /\
  (exists w',
     upcall_free ptr w = Returned tt w' /\
     trace w' =
       trace w ++
       around_switch (current_task w) k
         [entry_event (current_task w) k;
          EvDLog (rust_task.sched_loop k) "mem"
                 ("upcall free(0x%" +:+ PRIxPTR +:+ ", is_gc=%" +:+ PRIdPTR
                  +:+ ")") [LPtr ptr];
          EvUntrack (current_task w) ptr;
          EvBoxedFree (current_task w) ptr] /\
     mem w' = delete ptr (mem w)) /\
  (forall b,
     upcall_free ptr (set_mem (<[ptr := b]> (mem w)) w) = upcall_free ptr w).
Proof.
  intros Hk. repeat apply conj.
  - rewrite (upcall_exchange_free_run ptr w k Hk).
    eexists. repeat split.
  - intros b.
    rewrite (upcall_exchange_free_run ptr w k Hk).
    rewrite (upcall_exchange_free_run ptr _ k) by exact Hk.
    cbn. rewrite delete_insert_eq. reflexivity.
  - rewrite (upcall_free_run ptr w k Hk).
    eexists. repeat split.
  - intros b.
    rewrite (upcall_free_run ptr w k Hk).
    rewrite (upcall_free_run ptr _ k) by exact Hk.
    cbn. rewrite delete_insert_eq. reflexivity.
Qed.

(** ** Growing and shrinking the guest stack *)

(** C9: growing the guest stack and shrinking it at once gives the task back
    the frame base, and the whole segment chain, it had; neither entry point
    switches stacks or leaves anything in the trace, and the task stays on
    the stack it was on. *)
Theorem new_stack_then_del_stack (stk_sz args_addr args_sz : Z) (w : world)
    (k : rust_task.t) :
  tasks w !! current_task w = Some k ->
  exists base w1 w2 k1 k2,
    upcall_new_stack stk_sz args_addr args_sz w = Returned base w1 /\
    upcall_del_stack w1 = Returned tt w2 /\
    tasks w1 !! current_task w = Some k1 /\
    tasks w2 !! current_task w = Some k2 /\
    frame_base k1 = Some base /\
    frame_base k2 = frame_base k /\
    rust_task.stk k2 = rust_task.stk k /\
    rust_task.stack k1 = rust_task.stack k /\
    rust_task.stack k2 = rust_task.stack k /\
    trace w1 = trace w /\
    trace w2 = trace w /\
    tasks w2 = tasks w.
Proof.
  intros Hk. eexists (brk w), _, _, _, _.
  split. { unfold_upcalls. crunch Hk. reflexivity. }
  split. { unfold_upcalls. crunch Hk. reflexivity. }
  cbn. rewrite !lookup_insert_eq.
  split; [reflexivity |]. split; [reflexivity |].
  destruct k; cbn. repeat split.
  rewrite insert_insert_eq. apply insert_id. exact Hk.
Qed.

(** ** Further properties of the upcalls *)

(** X1: the trace upcall returns and changes nothing but the diagnostic trace:
    between the switches it logs the entry and then one record that carries
    the file, the line and the message, in the order of the format. *)
Theorem upcall_trace_only_logs (msg file : string) (line : Z) (w : world)
    (k : rust_task.t) :
  tasks w !! current_task w = Some k ->
  upcall_trace msg file line w =
  Returned tt
    (set_trace
       (trace w ++
        around_switch (current_task w) k
          [entry_event (current_task w) k;
           EvLog (current_task w) "trace" "Trace %s:%d: %s"
                 [LStr file; LNum line; LStr msg]])
       w).
Proof.
  intros Hk. unfold_upcalls. unfold around_switch.
  crunch Hk. destruct (rust_task.stack k) eqn:Hs; crunch Hk.
  - tidy. apply insert_id. rewrite Hk, <- Hs. f_equal.
    apply set_stack_round_trip.
  - tidy.
Qed.

Ltac crunch3 H H' H'' :=
  repeat (progress (cbn; rewrite ?lookup_insert_eq, ?H, ?H', ?H'')).

Ltac dispatch_case Hk Hs Ht :=
  eexists _, _, _, _;
  split; [crunch2 Hk Hs; reflexivity |];
  split; [unfold_upcalls; crunch3 Hk Hs Ht; reflexivity |];
  split; [cbn; rewrite <- !app_assoc; reflexivity |];
  split; [discriminate |];
  split; [reflexivity |];
  split; [crunch3 Hk Hs Ht; reflexivity |];
  split; [cbn; rewrite ?Hs; reflexivity |];
  split; [unfold_upcalls; crunch3 Hk Hs Ht; reflexivity |];
  split; [cbn; rewrite <- !app_assoc; reflexivity |];
  crunch3 Hk Hs Ht; reflexivity.

(** X2: every entry point that returns is dispatched to its handler: the
    handler runs on the argument record in the world entered on the native
    stack, where the thread executes on the C stack, and the entry point
    then leaves the task on the stack it was entered on.  Entered on the
    Rust stack, the events of the handler lie between exactly one switch to
    the C stack and one switch back; entered on the C stack, there is no
    switch at all. *)
Theorem returning_upcalls_restore_the_stack (td : type_desc.t)
    (size ptr line : Z) (msg file : string) (w : world) (k : rust_task.t) :
  tasks w !! current_task w = Some k ->
  dispatched (upcall_malloc td size) upcall_s_malloc
             (s_malloc_args.mk (current_task w) 0 td size)
             s_malloc_args.retval w k /\
  dispatched (upcall_free ptr) upcall_s_free
             (s_free_args.mk (current_task w) ptr) (fun _ => tt) w k /\
  dispatched (upcall_exchange_malloc td size) upcall_s_exchange_malloc
             (s_exchange_malloc_args.mk (current_task w) 0 td size)
             s_exchange_malloc_args.retval w k /\
  dispatched (upcall_exchange_free ptr) upcall_s_exchange_free
             (s_exchange_free_args.mk (current_task w) ptr) (fun _ => tt)
             w k /\
  dispatched (upcall_trace msg file line) upcall_s_trace
             (s_trace_args.mk (current_task w) msg file line) (fun _ => tt)
             w k.
Proof.
  intros Hk.
  unfold dispatched, entered_c_stack, left_c_stack, executing_stack,
    around_switch.
  destruct (tracker_on w) eqn:Ht; destruct (rust_task.stack k) eqn:Hs;
    repeat apply conj; dispatch_case Hk Hs Ht.
Qed.

(** X3: the footprint of an exchange allocation depends on the requested size
    and on the alignment of the descriptor only: two descriptors of the same
    alignment get the same address, the same footprint and the same zeroed
    body, whatever size they declare. *)
Theorem exchange_footprint_ignores_declared_size (td1 td2 : type_desc.t)
    (size : Z) (w : world) (k : rust_task.t) :
  tasks w !! current_task w = Some k ->
  type_desc.align td1 = type_desc.align td2 ->
  exists p w1 w2 b1 b2,
    upcall_exchange_malloc td1 size w = Returned p w1 /\
    upcall_exchange_malloc td2 size w = Returned p w2 /\
    mem w1 !! p = Some b1 /\
    mem w2 !! p = Some b2 /\
    block.footprint b1 = block.footprint b2 /\
    block.body b1 = block.body b2 /\
    brk w1 = brk w2 /\
    rust_opaque_box.td (block.header b1) = Some td1 /\
    rust_opaque_box.td (block.header b2) = Some td2.
Proof.
  intros Hk Ha.
  rewrite (upcall_exchange_malloc_run td1 size w k Hk).
  rewrite (upcall_exchange_malloc_run td2 size w k Hk).
  eexists _, _, _, _, _. split; [reflexivity |]. split; [reflexivity |].
  cbn. rewrite !lookup_insert_eq.
  split; [reflexivity |]. split; [reflexivity |]. cbn.
  rewrite Ha. repeat split.
Qed.

(** X4: exchange allocate followed by exchange free of the header it returned
    releases exactly that block: no task is touched, the tracker is not
    involved, and when the address was unused before, memory is as it was;
    only the break has moved. *)
Theorem exchange_malloc_then_free (td : type_desc.t) (size : Z) (w : world)
    (k : rust_task.t) :
  tasks w !! current_task w = Some k ->
  exists p w1 w2,
    upcall_exchange_malloc td size w = Returned p w1 /\
    upcall_exchange_free p w1 = Returned tt w2 /\
    mem w2 = delete p (mem w) /\
    (mem w !! p = None -> mem w2 = mem w) /\
    tasks w2 = tasks w /\
    tracked w2 = tracked w /\
    brk w2 = brk w + Z.max (get_box_size size (type_desc.align td)) 1.
Proof.
  intros Hk.
  rewrite (upcall_exchange_malloc_run td size w k Hk).
  eexists _, _, _. split; [reflexivity |].
  erewrite upcall_exchange_free_run by exact Hk.
  split; [reflexivity |]. cbn. rewrite delete_insert_eq.
  repeat split. intros Hnone. apply delete_id. exact Hnone.
Qed.

(** X5: the fail upcall touches the failing task only: memory, the break, the
    tracker, the unwinder state and every other task are as before when
    control leaves, and the failing task is left on the C stack, with no
    switch back. *)
Theorem fail_touches_only_the_task (expr file : string) (line : Z) (w : world)
    (k : rust_task.t) :
  tasks w !! current_task w = Some k ->
  exists w',
    upcall_fail expr file line w
    = Unwinding (TaskFailure (current_task w)) w' /\
    mem w' = mem w /\
    brk w' = brk w /\
    tracked w' = tracked w /\
    unwinder w' = unwinder w /\
    (forall t, t <> current_task w -> tasks w' !! t = tasks w !! t) /\
    tasks w' !! current_task w =
      Some (rust_task.set_failure (Some (expr, file, line))
              (rust_task.set_stack CStack k)) /\
    trace w' =
      trace w ++
      match rust_task.stack k with
      | RustStack => [EvSwitch (current_task w) CStack]
      | CStack => []
      end ++ [entry_event (current_task w) k].
Proof.
  intros Hk. unfold_upcalls.
  crunch Hk. destruct (rust_task.stack k) eqn:Hs; crunch Hk.
  - eexists. split; [reflexivity |]. cbn.
    rewrite lookup_insert_eq, <- app_assoc. repeat split.
    intros t Ht. rewrite !lookup_insert_ne by congruence. reflexivity.
  - eexists. split; [reflexivity |]. cbn.
    rewrite lookup_insert_eq. repeat split.
    + intros t Ht. rewrite lookup_insert_ne by congruence. reflexivity.
    + destruct k; cbn in *; subst; reflexivity.
Qed.

(** X6: when the function a shim invokes returns, the shim returns the argument
    block as the function left it and puts the task back on the stack the
    shim was entered on; nothing is reported. *)
Theorem shims_pass_a_return_through {A : Type} (args : A) (fn_ptr : A -> M A)
    (w : world) (k : rust_task.t) :
  tasks w !! current_task w = Some k ->
  (forall a w1 k1,
     fn_ptr args (entered_c_stack (current_task w) k w) = Returned a w1 ->
     tasks w1 !! current_task w = Some k1 ->
     upcall_call_shim_on_c_stack args fn_ptr w =
     Returned a
       match rust_task.stack k with
       | CStack => w1
       | RustStack =>
           set_trace (trace w1 ++ [EvSwitch (current_task w) RustStack])
             (set_tasks
                (<[current_task w := rust_task.set_stack RustStack k1]>
                   (tasks w1)) w1)
       end) /\
  (forall a w1 k1,
     fn_ptr args (entered_rust_stack (current_task w) k w) = Returned a w1 ->
     tasks w1 !! current_task w = Some k1 ->
     upcall_call_shim_on_rust_stack args fn_ptr w =
     Returned a
       (set_trace (trace w1 ++ [EvSwitch (current_task w) (rust_task.stack k)])
          (set_tasks
             (<[current_task w := rust_task.set_stack (rust_task.stack k) k1]>
                (tasks w1)) w1))).
Proof.
  intros Hk. split.
  - intros a w1 k1 Hfn Hk1.
    unfold upcall_call_shim_on_c_stack, try_catch, call_on_c_stack,
      entered_c_stack in *.
    unfold bind at 1. unfold rust_get_current_task at 1.
    unfold bind at 1. unfold deref_task at 1. rewrite Hk.
    destruct (rust_task.stack k).
    + unfold bind at 1. unfold update_task at 1. rewrite Hk.
      unfold bind at 1. unfold emit at 1. cbn [trace set_tasks].
      unfold bind at 1.
      cbn in Hfn. cbn. rewrite Hfn.
      unfold bind, update_task, emit, ret. rewrite Hk1. reflexivity.
    + rewrite Hfn. reflexivity.
  - intros a w1 k1 Hfn Hk1.
    unfold upcall_call_shim_on_rust_stack, try_catch, call_on_rust_stack,
      entered_rust_stack in *.
    unfold bind at 1. unfold rust_get_current_task at 1.
    unfold bind at 1. unfold deref_task at 1. rewrite Hk.
    unfold bind at 1. unfold update_task at 1. rewrite Hk.
    unfold bind at 1. unfold emit at 1. cbn [trace set_tasks].
    unfold bind at 1.
    cbn in Hfn. cbn. rewrite Hfn.
    unfold bind, update_task, emit, ret. rewrite Hk1. reflexivity.
Qed.

(** X7: an abort inside the function a shim invokes passes through the shim
    as it is: the handler of the shim does not run and no assertion is
    reported. *)
Theorem shims_pass_an_abort_through {A : Type} (args : A) (fn_ptr : A -> M A)
    (w : world) (k : rust_task.t) :
  tasks w !! current_task w = Some k ->
  (forall w1,
     fn_ptr args (entered_c_stack (current_task w) k w) = Aborted w1 ->
     upcall_call_shim_on_c_stack args fn_ptr w = Aborted w1) /\
  (forall w1,
     fn_ptr args (entered_rust_stack (current_task w) k w) = Aborted w1 ->
     upcall_call_shim_on_rust_stack args fn_ptr w = Aborted w1).
Proof.
  intros Hk. split.
  - intros w1 Hfn.
    unfold upcall_call_shim_on_c_stack, try_catch, call_on_c_stack,
      entered_c_stack in *.
    unfold bind at 1. unfold rust_get_current_task at 1.
    unfold bind at 1. unfold deref_task at 1. rewrite Hk.
    destruct (rust_task.stack k).
    + unfold bind at 1. unfold update_task at 1. rewrite Hk.
      unfold bind at 1. unfold emit at 1. cbn [trace set_tasks].
      unfold bind at 1.
      cbn in Hfn. cbn. rewrite Hfn. reflexivity.
    + rewrite Hfn. reflexivity.
  - intros w1 Hfn.
    unfold upcall_call_shim_on_rust_stack, try_catch, call_on_rust_stack,
      entered_rust_stack in *.
    unfold bind at 1. unfold rust_get_current_task at 1.
    unfold bind at 1. unfold deref_task at 1. rewrite Hk.
    unfold bind at 1. unfold update_task at 1. rewrite Hk.
    unfold bind at 1. unfold emit at 1. cbn [trace set_tasks].
    unfold bind at 1.
    cbn in Hfn. cbn. rewrite Hfn. reflexivity.
Qed.

Ltac unfold_shims :=
  unfold upcall_call_shim_on_c_stack, upcall_call_shim_on_rust_stack,
    try_catch, assert, entered_c_stack, entered_rust_stack, assert_failed
    in *.

(** X8: a task failure raised on the Rust stack inside the native-to-guest shim
    ends in a process abort, after the failure has been recorded on the task
    and the assertion of the shim has reported; memory is untouched. *)
Theorem failure_in_rust_shim_aborts {A : Type} (args : A)
    (expr file : string) (line : Z) (w : world) (k : rust_task.t) :
  tasks w !! current_task w = Some k ->
  exists w' k',
    upcall_call_shim_on_rust_stack
      args (fun a => bind (upcall_fail expr file line) (fun _ => ret a)) w
    = Aborted w' /\
    tasks w' !! current_task w = Some k' /\
    rust_task.failure k' = Some (expr, file, line) /\
    trace w' =
      trace w ++
      [EvSwitch (current_task w) RustStack;
       EvSwitch (current_task w) CStack;
       entry_event (current_task w) k;
       EvAssertFailed "Rust task failed after reentering the Rust stack"] /\
    mem w' = mem w.
Proof.
  intros Hk. unfold_shims. unfold_upcalls. crunch Hk.
  eexists _, _. split; [reflexivity |]. cbn.
  rewrite lookup_insert_eq, <- !app_assoc. repeat split.
Qed.

(** X9: no entry point checks the task pointer it gets from
    [rust_get_current_task]: when that pointer designates no task, every
    upcall that goes through the task dereferences it. *)
Theorem upcalls_dereference_the_current_task {A : Type} (args : A)
    (fn_ptr : A -> M A) (td : type_desc.t) (size ptr line : Z)
    (msg file : string) (v a ec ue ctx : Z) (w : world) :
  tasks w !! current_task w = None ->
  upcall_call_shim_on_c_stack args fn_ptr w = Undefined /\
  upcall_call_shim_on_rust_stack args fn_ptr w = Undefined /\
  upcall_fail msg file line w = Undefined /\
  upcall_trace msg file line w = Undefined /\
  upcall_exchange_malloc td size w = Undefined /\
  upcall_exchange_free ptr w = Undefined /\
  upcall_malloc td size w = Undefined /\
  upcall_free ptr w = Undefined /\
  upcall_rust_personality v a ec ue ctx w = Undefined /\
  upcall_new_stack size ptr line w = Undefined /\
  upcall_del_stack w = Undefined.
Proof.
  intros Hnone. unfold_shims. unfold_upcalls. cbn. rewrite Hnone.
  repeat split.
Qed.

(** X10: the allocation handlers act on the task named in their argument
    record, whichever task is current: the box joins or leaves the live-
    allocation list of that task, every other task is untouched, the handler
    itself switches no stack, and in the record only the return slot is
    written, whatever it held. *)
Theorem handlers_act_on_the_task_of_the_record (td : type_desc.t)
    (size r0 ptr : Z) (w : world) (t : Z) (k : rust_task.t) :
  tasks w !! t = Some k ->
  (exists w' evs,
     upcall_s_malloc (s_malloc_args.mk t r0 td size) w
     = Returned (s_malloc_args.mk t (brk w) td size) w' /\
     live_list w' t =
       Some (brk w :: boxed_region.live_allocs (rust_task.boxed k)) /\
     (forall t', t' <> t -> tasks w' !! t' = tasks w !! t') /\
     current_task w' = current_task w /\
     trace w' = trace w ++ evs /\
     List.filter is_switch evs = []) /\
  (exists w' evs,
     upcall_s_free (s_free_args.mk t ptr) w
     = Returned (s_free_args.mk t ptr) w' /\
     live_list w' t =
       Some (unlink ptr (boxed_region.live_allocs (rust_task.boxed k))) /\
     (forall t', t' <> t -> tasks w' !! t' = tasks w !! t') /\
     current_task w' = current_task w /\
     trace w' = trace w ++ evs /\
     List.filter is_switch evs = []).
Proof.
  intros Hk. split.
  - unfold_upcalls. destruct (tracker_on w) eqn:Ht; crunch2 Hk Ht.
    + eexists _, _. split; [reflexivity |]. unfold live_list. cbn.
      rewrite lookup_insert_eq, <- !app_assoc. cbn. repeat split.
      intros t' Hne. rewrite lookup_insert_ne by congruence. reflexivity.
    + eexists _, _. split; [reflexivity |]. unfold live_list. cbn.
      rewrite lookup_insert_eq, <- !app_assoc. cbn. repeat split.
      intros t' Hne. rewrite lookup_insert_ne by congruence. reflexivity.
  - unfold_upcalls. destruct (tracker_on w) eqn:Ht; crunch2 Hk Ht.
    + eexists _, _. split; [reflexivity |]. unfold live_list. cbn.
      rewrite lookup_insert_eq, <- !app_assoc. cbn. repeat split.
      intros t' Hne. rewrite lookup_insert_ne by congruence. reflexivity.
    + eexists _, _. split; [reflexivity |]. unfold live_list. cbn.
      rewrite lookup_insert_eq, <- !app_assoc. cbn. repeat split.
      intros t' Hne. rewrite lookup_insert_ne by congruence. reflexivity.
Qed.

(** X11: nested boundary crossings: when native code reached through the
    guest-to-native shim re-enters guest code through the native-to-guest
    shim and that code leaves by an exception, the inner shim aborts the
    process with its own assertion; the exception never reaches the handler
    of the outer shim. *)
Theorem nested_shims_abort_at_the_inner_boundary {A : Type} (args : A)
    (fn_ptr : A -> M A) (w : world) (k : rust_task.t) (e : exn) (w1 : world) :
  tasks w !! current_task w = Some k ->
  fn_ptr args
    (entered_rust_stack (current_task w) (rust_task.set_stack CStack k)
       (entered_c_stack (current_task w) k w))
  = Unwinding e w1 ->
  upcall_call_shim_on_c_stack
    args (fun a => upcall_call_shim_on_rust_stack a fn_ptr) w
  = Aborted
      (assert_failed "Rust task failed after reentering the Rust stack" w1).
Proof.
  intros Hk Hfn. unfold_shims.
  unfold call_on_c_stack, call_on_rust_stack, update_task, deref_task, emit,
    abort, rust_get_current_task, bind, ret in *.
  crunch Hk. destruct (rust_task.stack k) eqn:Hs; cbn in Hfn.
  - crunch Hk. rewrite Hfn. reflexivity.
  - crunch Hk.
    replace (rust_task.set_stack RustStack k)
      with (rust_task.set_stack RustStack (rust_task.set_stack CStack k))
      by (destruct k; reflexivity).
    rewrite Hfn. reflexivity.
Qed.

Lemma unlink_other (a b : Z) (l : list Z) :
  a <> b -> unlink a (b :: l) = b :: unlink a l.
Proof.
  intros Hne. cbn. destruct (Z.eqb_spec b a); [congruence | reflexivity].
Qed.

(** X12: two task-local allocations freed in the order they were made, the
    older box first, leave the task table as it was before the first allocate: a
    free takes its own box out of the live-allocation list wherever it
    stands. *)
Theorem two_mallocs_freed_in_allocation_order (td1 td2 : type_desc.t)
    (size1 size2 : Z) (w : world) (k : rust_task.t) :
  tasks w !! current_task w = Some k ->
  exists box1 box2 w1 w2 w3 w4,
    upcall_malloc td1 size1 w = Returned box1 w1 /\
    upcall_malloc td2 size2 w1 = Returned box2 w2 /\
    upcall_free box1 w2 = Returned tt w3 /\
    upcall_free box2 w3 = Returned tt w4 /\
    box1 <> box2 /\
    live_list w2 (current_task w) =
      Some (box2 :: box1 :: boxed_region.live_allocs (rust_task.boxed k)) /\
    live_list w3 (current_task w) =
      Some (box2 :: boxed_region.live_allocs (rust_task.boxed k)) /\
    tasks w4 = tasks w.
Proof.
  intros Hk.
  rewrite (upcall_malloc_run td1 size1 w k Hk).
  eexists _, _, _, _, _, _. split; [reflexivity |].
  erewrite upcall_malloc_run by (cbn; apply lookup_insert_eq).
  split; [reflexivity |].
  erewrite upcall_free_run by (cbn -[unlink]; apply lookup_insert_eq).
  split; [reflexivity |].
  erewrite upcall_free_run by (cbn -[unlink]; apply lookup_insert_eq).
  split; [reflexivity |].
  assert (Hne :
    brk w <> brk w + Z.max (get_box_size size1 (type_desc.align td1)) 1)
    by lia.
  split; [exact Hne |]. unfold live_list. cbn -[unlink].
  rewrite !lookup_insert_eq. cbn -[unlink].
  rewrite (unlink_other (brk w) _ _ Hne), !unlink_head.
  repeat split.
  rewrite !insert_insert_eq. apply insert_id. rewrite Hk.
  destruct k as [? ? [?] ? ? ?]. reflexivity.
Qed.

End UpcallFacts.

(** ** Concrete runs *)

Lemma exchange_malloc_header_witness :
  exists header w' b,
    upcall_exchange_malloc (E := sample) sample_td 16
                           (sample_world RustStack false)
    = Returned header w' /\
    header = 4096 /\
    mem w' !! header = Some b /\
    block.footprint b = 48 /\
    block.header b = rust_opaque_box.mk (-1) (Some sample_td) 0 0 /\
    block.body b = replicate 16 0.
Proof.
  destruct (exchange_malloc_header (E := sample) sample_td 16
              (sample_world RustStack false) (sample_task RustStack)
              eq_refl)
    as (header & w' & b & Hrun & _ & Hb & Hfoot & Hbody & Hrc & Htd & Hprev
        & Hnext & _).
  exists header, w', b.
  assert (Hh : header = 4096).
  { vm_compute in Hrun. congruence. }
  repeat split; try assumption.
  destruct b as [? [? ? ? ?] ?]; cbn in *. subst. reflexivity.
Defined.

Lemma personality_paths_agree_witness :
  exists wg' wn',
    upcall_rust_personality (E := sample) 1 2 3 500 600
                            (sample_world RustStack false)
    = Returned 6 wg' /\
    upcall_rust_personality (E := sample) 1 2 3 500 600
                            (sample_world CStack false)
    = Returned 6 wn' /\
    unwinder wg' = unwinder wn' /\
    trace wg' =
      [EvSwitch 1 CStack; EvPersonality CStack 1 2 3 500 600;
       EvSwitch 1 RustStack] /\
    trace wn' = [EvPersonality CStack 1 2 3 500 600].
Proof.
  destruct (personality_paths_agree (E := sample) 1 2 3 500 600
              (sample_world RustStack false) (sample_world CStack false)
              (sample_task RustStack) (sample_task CStack)
              eq_refl eq_refl eq_refl eq_refl eq_refl)
    as (wg' & wn' & Hg & Hn & Hug & Hun & Htg & Htn & _).
  exists wg', wn'. repeat split; try assumption.
  congruence.
Defined.

Lemma shim_failure_aborts_witness :
  upcall_call_shim_on_c_stack (E := sample) tt (fun _ => throw (Foreign 7))
                              (sample_world RustStack false)
  = Aborted
      (assert_failed "Foreign code threw an exception"
         (entered_c_stack 1 (sample_task RustStack)
                          (sample_world RustStack false))) /\
  exists w1,
    upcall_call_shim_on_rust_stack
      (E := sample) tt
      (fun a => bind (upcall_fail "x > 0" "file.ext" 42) (fun _ => ret a))
      (sample_world CStack false)
    = Aborted
        (assert_failed "Rust task failed after reentering the Rust stack" w1).
Proof.
  split.
  - destruct (shim_failure_aborts (E := sample) tt
                (fun _ => throw (Foreign 7)) (sample_world RustStack false)
                (sample_task RustStack) eq_refl) as (Hc & _).
    apply (Hc (Foreign 7)). reflexivity.
  - destruct (shim_failure_aborts (E := sample) tt
                (fun a =>
                   bind (upcall_fail "x > 0" "file.ext" 42) (fun _ => ret a))
                (sample_world CStack false)
                (sample_task CStack) eq_refl) as (_ & Hr & _).
    eexists. eapply (Hr (TaskFailure 1)). vm_compute. reflexivity.
Defined.

Lemma malloc_then_free_restores_live_list_witness :
  exists box w1 w2,
    upcall_malloc (E := sample) sample_td 16 (sample_world RustStack true)
    = Returned box w1 /\
    upcall_free box w1 = Returned tt w2 /\
    live_list w1 1 = Some [box; 4000] /\
    live_list w2 1 = Some [4000].
Proof.
  destruct (malloc_then_free_restores_live_list (E := sample) sample_td 16
              (sample_world RustStack true) (sample_task RustStack) eq_refl)
    as (box & w1 & w2 & Hm & Hf & Hl1 & Hl2 & _).
  exists box, w1, w2. repeat split; assumption.
Defined.

Lemma fail_records_and_unwinds_witness :
  exists w' k',
    upcall_fail (E := sample) "x > 0" "file.ext" 42
                (sample_world RustStack false)
    = Unwinding (TaskFailure 1) w' /\
    tasks w' !! 1 = Some k' /\
    rust_task.failure k' = Some ("x > 0"%string, "file.ext"%string, 42).
Proof.
  destruct (fail_records_and_unwinds (E := sample) "x > 0" "file.ext" 42
              (sample_world RustStack false) (sample_task RustStack) eq_refl)
    as (w' & k' & Hrun & Hk' & Hfail & _).
  exists w', k'. repeat split; assumption.
Defined.

Lemma tracker_hooks_on_task_local_paths_witness :
  (exists box w' evs,
     upcall_malloc (E := sample) sample_td 16 (sample_world RustStack false)
     = Returned box w' /\
     trace w' = evs /\ EvTrack 1 box ∈ evs) /\
  (exists w' evs,
     upcall_free (E := sample) 4000 (sample_world RustStack false)
     = Returned tt w' /\
     trace w' = evs /\ EvUntrack 1 4000 ∈ evs).
Proof.
  destruct (tracker_hooks_on_task_local_paths (E := sample) sample_td 16 4000
              (sample_world RustStack false) (sample_task RustStack) eq_refl)
    as ((box & w1 & evs1 & Hm & Ht1 & Hin1)
        & (w2 & evs2 & Hf & Ht2 & Hin2) & _).
  split.
  - exists box, w1, evs1. repeat split; assumption.
  - exists w2, evs2. repeat split; assumption.
Defined.

(** With the tracker enabled, exchange allocate and exchange free run to
    completion and leave no call of a tracker hook in the trace. *)
Lemma exchange_paths_skip_tracker :
  (exists header w',
     upcall_exchange_malloc (E := sample) sample_td 16
                            (sample_world RustStack true)
     = Returned header w' /\
     trace w' =
       [EvSwitch 1 CStack;
        EvLog 1 "upcall" "> UPCALL task: %s @x%lx" [LStr "main"; LPtr 1];
        EvKernelCalloc 48 "exchange malloc" 4096;
        EvLog 1 "mem" "exchange malloced %p of size %lu"
              [LPtr 4096; LNum 16];
        EvSwitch 1 RustStack] /\
     existsb is_track (trace w') = false /\
     tracked w' = []) /\
  (exists w',
     upcall_exchange_free (E := sample) 4000 (sample_world RustStack true)
     = Returned tt w' /\
     trace w' =
       [EvSwitch 1 CStack;
        EvLog 1 "upcall" "> UPCALL task: %s @x%lx" [LStr "main"; LPtr 1];
        EvLog 1 "mem" "exchange freed %p" [LPtr 4000];
        EvKernelFree 4000;
        EvSwitch 1 RustStack] /\
     existsb is_untrack (trace w') = false).
Proof.
  split.
  - eexists _, _. split; [vm_compute; reflexivity |]. repeat split.
  - eexists _. split; [vm_compute; reflexivity |]. repeat split.
Qed.

Lemma free_paths_do_not_check_witness :
  (exists w',
     upcall_exchange_free (E := sample) 4000 (sample_world RustStack false)
     = Returned tt w' /\
     mem w' = delete 4000 (mem (sample_world RustStack false)) /\
     live_list w' 1 = Some [4000]) /\
  (exists w',
     upcall_free (E := sample) 12345 (sample_world RustStack false)
     = Returned tt w' /\
     mem w' = delete 12345 (mem (sample_world RustStack false))).
Proof.
  split.
  - destruct (free_paths_do_not_check (E := sample) 4000
                (sample_world RustStack false) (sample_task RustStack)
                eq_refl) as ((w' & Hrun & _ & Hmem & Htasks) & _).
    exists w'. repeat split; try assumption.
    unfold live_list. rewrite Htasks. reflexivity.
  - destruct (free_paths_do_not_check (E := sample) 12345
                (sample_world RustStack false) (sample_task RustStack)
                eq_refl) as (_ & _ & (w' & Hrun & _ & Hmem) & _).
    exists w'. repeat split; assumption.
Defined.

Lemma new_stack_then_del_stack_witness :
  exists base w1 w2 k1 k2,
    upcall_new_stack (E := sample) 512 9000 24 (sample_world RustStack false)
    = Returned base w1 /\
    upcall_del_stack w1 = Returned tt w2 /\
    tasks w1 !! 1 = Some k1 /\
    tasks w2 !! 1 = Some k2 /\
    frame_base k1 = Some base /\
    frame_base k2 = Some 2048.
Proof.
  destruct (new_stack_then_del_stack (E := sample) 512 9000 24
              (sample_world RustStack false) (sample_task RustStack) eq_refl)
    as (base & w1 & w2 & k1 & k2 & Hn & Hd & Hk1 & Hk2 & Hb1 & Hb2 & _).
  exists base, w1, w2, k1, k2. repeat split; assumption.
Defined.

(** ** Concrete runs of the further properties *)

Lemma upcall_trace_only_logs_witness :
  exists w',
    upcall_trace (E := sample) "hello" "file.ext" 42
                 (sample_world RustStack false)
    = Returned tt w' /\
    trace w' =
      [EvSwitch 1 CStack;
       EvLog 1 "upcall" "> UPCALL task: %s @x%lx" [LStr "main"; LPtr 1];
       EvLog 1 "trace" "Trace %s:%d: %s"
             [LStr "file.ext"; LNum 42; LStr "hello"];
       EvSwitch 1 RustStack] /\
    mem w' = mem (sample_world RustStack false) /\
    tasks w' = tasks (sample_world RustStack false).
Proof.
  eexists. split.
  - apply (upcall_trace_only_logs (E := sample) "hello" "file.ext" 42
             (sample_world RustStack false) (sample_task RustStack) eq_refl).
  - repeat split.
Defined.

Lemma returning_upcalls_restore_the_stack_witness :
  exists args' w1 k1 w',
    upcall_s_malloc (E := sample) (s_malloc_args.mk 1 0 sample_td 16)
                    (entered_c_stack 1 (sample_task RustStack)
                                     (sample_world RustStack true))
    = Returned args' w1 /\
    tasks w1 !! 1 = Some k1 /\
    rust_task.stack k1 = CStack /\
    upcall_malloc (E := sample) sample_td 16 (sample_world RustStack true)
    = Returned (s_malloc_args.retval args') w' /\
    executing_stack w' = RustStack.
Proof.
  destruct (returning_upcalls_restore_the_stack (E := sample) sample_td 16
              4000 42 "hello" "file.ext" (sample_world RustStack true)
              (sample_task RustStack) eq_refl)
    as ((args' & w1 & k1 & hevs & _ & Hh & _ & _ & _ & Hk1 & Hs1 & Hrun & _
         & Hex) & _).
  exists args', w1, k1. eexists. repeat split; eassumption.
Defined.

Lemma exchange_footprint_ignores_declared_size_witness :
  exists p w1 w2 b1 b2,
    upcall_exchange_malloc (E := sample) (type_desc.mk 16 8) 24
                           (sample_world RustStack false)
    = Returned p w1 /\
    upcall_exchange_malloc (E := sample) (type_desc.mk 4096 8) 24
                           (sample_world RustStack false)
    = Returned p w2 /\
    mem w1 !! p = Some b1 /\
    mem w2 !! p = Some b2 /\
    block.footprint b1 = block.footprint b2.
Proof.
  destruct (exchange_footprint_ignores_declared_size (E := sample)
              (type_desc.mk 16 8) (type_desc.mk 4096 8) 24
              (sample_world RustStack false) (sample_task RustStack)
              eq_refl eq_refl)
    as (p & w1 & w2 & b1 & b2 & H1 & H2 & Hb1 & Hb2 & Hf & _).
  exists p, w1, w2, b1, b2. repeat split; assumption.
Defined.

Lemma exchange_malloc_then_free_witness :
  exists p w1 w2,
    upcall_exchange_malloc (E := sample) sample_td 16
                           (sample_world RustStack false)
    = Returned p w1 /\
    upcall_exchange_free p w1 = Returned tt w2 /\
    mem w2 = mem (sample_world RustStack false) /\
    tasks w2 = tasks (sample_world RustStack false).
Proof.
  destruct (exchange_malloc_then_free (E := sample) sample_td 16
              (sample_world RustStack false) (sample_task RustStack) eq_refl)
    as (p & w1 & w2 & H1 & H2 & Hdel & Hfresh & Htasks & _).
  exists p, w1, w2. repeat split; try assumption.
  apply Hfresh. vm_compute in H1.
  assert (Hp : p = 4096) by congruence. subst p. reflexivity.
Defined.

Lemma fail_touches_only_the_task_witness :
  exists w',
    upcall_fail (E := sample) "x > 0" "file.ext" 42
                (sample_world RustStack false)
    = Unwinding (TaskFailure 1) w' /\
    mem w' = mem (sample_world RustStack false) /\
    trace w' =
      [EvSwitch 1 CStack;
       EvLog 1 "upcall" "> UPCALL task: %s @x%lx" [LStr "main"; LPtr 1]].
Proof.
  destruct (fail_touches_only_the_task (E := sample) "x > 0" "file.ext" 42
              (sample_world RustStack false) (sample_task RustStack) eq_refl)
    as (w' & Hrun & Hmem & _ & _ & _ & _ & _ & Htrace).
  exists w'. repeat split; assumption.
Defined.

Lemma shims_pass_a_return_through_witness :
  (exists w',
     upcall_call_shim_on_c_stack (E := sample) 5 (fun a => ret (a + 1))
                                 (sample_world RustStack false)
     = Returned 6 w' /\
     trace w' = [EvSwitch 1 CStack; EvSwitch 1 RustStack] /\
     tasks w' = tasks (sample_world RustStack false)) /\
  (exists w',
     upcall_call_shim_on_rust_stack (E := sample) 5 (fun a => ret (a + 1))
                                    (sample_world CStack false)
     = Returned 6 w' /\
     trace w' = [EvSwitch 1 RustStack; EvSwitch 1 CStack] /\
     tasks w' = tasks (sample_world CStack false)).
Proof.
  split.
  - destruct (shims_pass_a_return_through (E := sample) 5
                (fun a => ret (a + 1)) (sample_world RustStack false)
                (sample_task RustStack) eq_refl) as (Hc & _).
    eexists. split; [eapply Hc; reflexivity |].
    split; [reflexivity |]. vm_compute. reflexivity.
  - destruct (shims_pass_a_return_through (E := sample) 5
                (fun a => ret (a + 1)) (sample_world CStack false)
                (sample_task CStack) eq_refl) as (_ & Hr).
    eexists. split; [eapply Hr; reflexivity |].
    split; [reflexivity |]. vm_compute. reflexivity.
Defined.

Lemma shims_pass_an_abort_through_witness :
  upcall_call_shim_on_c_stack (E := sample) tt (fun _ => abort)
                              (sample_world CStack false)
  = Aborted (sample_world CStack false) /\
  upcall_call_shim_on_rust_stack (E := sample) tt
                                 (fun _ => upcall_validate_box 4000)
                                 (sample_world CStack false)
  = Aborted (entered_rust_stack 1 (sample_task CStack)
                                (sample_world CStack false)).
Proof.
  split.
  - destruct (shims_pass_an_abort_through (E := sample) tt (fun _ => abort)
                (sample_world CStack false) (sample_task CStack) eq_refl)
      as (Hc & _).
    apply Hc. reflexivity.
  - destruct (shims_pass_an_abort_through (E := sample) tt
                (fun _ => upcall_validate_box 4000)
                (sample_world CStack false) (sample_task CStack) eq_refl)
      as (_ & Hr).
    apply Hr. reflexivity.
Defined.

Lemma failure_in_rust_shim_aborts_witness :
  exists w' k',
    upcall_call_shim_on_rust_stack
      (E := sample) tt
      (fun a => bind (upcall_fail "x > 0" "file.ext" 42) (fun _ => ret a))
      (sample_world CStack false)
    = Aborted w' /\
    tasks w' !! 1 = Some k' /\
    rust_task.failure k' = Some ("x > 0"%string, "file.ext"%string, 42) /\
    last (trace w') =
      Some (EvAssertFailed "Rust task failed after reentering the Rust stack").
Proof.
  destruct (failure_in_rust_shim_aborts (E := sample) tt "x > 0" "file.ext" 42
              (sample_world CStack false) (sample_task CStack) eq_refl)
    as (w' & k' & Hrun & Hk' & Hfail & Htrace & _).
  exists w', k'. repeat split; try assumption.
  rewrite Htrace. reflexivity.
Defined.

Lemma upcalls_dereference_the_current_task_witness :
  upcall_malloc (E := sample) sample_td 16
                (set_tasks (∅ : gmap Z rust_task.t)
                           (sample_world RustStack false))
  = Undefined /\
  upcall_fail (E := sample) "x > 0" "file.ext" 42
              (set_tasks (∅ : gmap Z rust_task.t)
                         (sample_world RustStack false))
  = Undefined.
Proof.
  assert (Hnone :
    tasks (set_tasks (∅ : gmap Z rust_task.t) (sample_world RustStack false))
    !! current_task
         (set_tasks (∅ : gmap Z rust_task.t) (sample_world RustStack false))
    = None) by (vm_compute; reflexivity).
  destruct (upcalls_dereference_the_current_task (E := sample) tt
              (fun a => ret a) sample_td 16 4000 42 "x > 0" "file.ext"
              1 2 3 500 600 _ Hnone)
    as (_ & _ & Hfail & _ & _ & _ & Hmalloc & _).
  split; assumption.
Defined.

Lemma handlers_act_on_the_task_of_the_record_witness :
  exists w',
    upcall_s_malloc
      (E := sample) (s_malloc_args.mk 2 99 sample_td 16)
      (set_tasks (<[2 := sample_task CStack]>
                    (tasks (sample_world RustStack false)))
                 (sample_world RustStack false))
    = Returned (s_malloc_args.mk 2 4096 sample_td 16) w' /\
    live_list w' 2 = Some [4096; 4000] /\
    live_list w' 1 = Some [4000].
Proof.
  assert (Hk :
    tasks (set_tasks (<[2 := sample_task CStack]>
                        (tasks (sample_world RustStack false)))
                     (sample_world RustStack false))
    !! 2 = Some (sample_task CStack)) by (vm_compute; reflexivity).
  destruct (handlers_act_on_the_task_of_the_record (E := sample) sample_td 16
              99 4000 _ 2 (sample_task CStack) Hk)
    as ((w' & evs & Hrun & Hlive & Hother & _) & _).
  exists w'. repeat split; try assumption.
  unfold live_list. rewrite (Hother 1) by discriminate.
  vm_compute. reflexivity.
Defined.

Lemma nested_shims_abort_at_the_inner_boundary_witness :
  exists w1,
    upcall_call_shim_on_c_stack
      (E := sample) tt
      (fun a =>
         upcall_call_shim_on_rust_stack a (fun _ => throw (Foreign 7)))
      (sample_world RustStack false)
    = Aborted
        (assert_failed "Rust task failed after reentering the Rust stack" w1)
    /\ trace w1 = [EvSwitch 1 CStack; EvSwitch 1 RustStack].
Proof.
  eexists. split.
  - eapply (nested_shims_abort_at_the_inner_boundary (E := sample) tt
              (fun _ => throw (Foreign 7)) (sample_world RustStack false)
              (sample_task RustStack) (Foreign 7) _ eq_refl).
    reflexivity.
  - reflexivity.
Defined.

Lemma two_mallocs_freed_in_allocation_order_witness :
  exists box1 box2 w1 w2 w3 w4,
    upcall_malloc (E := sample) sample_td 16 (sample_world RustStack true)
    = Returned box1 w1 /\
    upcall_malloc sample_td 24 w1 = Returned box2 w2 /\
    upcall_free box1 w2 = Returned tt w3 /\
    upcall_free box2 w3 = Returned tt w4 /\
    live_list w3 1 = Some [box2; 4000] /\
    tasks w4 = tasks (sample_world RustStack true).
Proof.
  destruct (two_mallocs_freed_in_allocation_order (E := sample) sample_td
              sample_td 16 24 (sample_world RustStack true)
              (sample_task RustStack) eq_refl)
    as (box1 & box2 & w1 & w2 & w3 & w4 & H1 & H2 & H3 & H4 & _ & _ & Hl3
        & Htasks).
  exists box1, box2, w1, w2, w3, w4. repeat split; assumption.
Defined.
